(** * Budget allocation across counties: a shallow embedding of
      [lib/helpers/allocation_methods.py] and the models it uses.

    Numbers.  Python's [float] is idealised as an exact rational ([Q]);
    comparisons on floats are comparisons up to [Qeq].  Integers
    ([population], [project_score], ids) are [Z].  [round(x, 2)] is
    round-half-to-even to two decimals.

    Exceptions.  A Python computation that may raise is a value of
    [result A]; [try/except Exception] is a match on it.

    Storage.  The SQLAlchemy session is a state of type [Session]; code
    that uses it is a function from sessions to a result and a session. *)

From Stdlib Require Import QArith Qround Qabs Lqa ZArith List Ascii String Lia.
From Stdlib Require Import Sorting.Permutation Sorting.Sorted.
From stdpp Require Import gmap strings.
Import ListNotations.

Local Open Scope Z_scope.
Local Open Scope Q_scope.
Local Open Scope string_scope.

(** ** Exceptions and the result monad *)

Inductive exn : Type :=
| ValueError (msg : string)
| ZeroDivisionError
| StorageError (msg : string).

(** [str(e)] *)
Definition str_exn (e : exn) : string :=
  match e with
  | ValueError msg => msg
  | ZeroDivisionError => "float division by zero"
  | StorageError msg => msg
  end.

Inductive result (A : Type) : Type :=
| Ok (a : A)
| Raise (e : exn).
Arguments Ok {A} a.
Arguments Raise {A} e.

(** Sequencing: [x ← m; k] runs [m] and, unless it raised, continues
    with [k]. *)
#[global] Instance result_bind : MBind result := fun A B k m =>
  match m with
  | Ok a => k a
  | Raise e => Raise e
  end.

(** A [for] loop that appends one computed element per iteration. *)
Fixpoint for_each {A B} (f : A -> result B) (l : list A) : result (list B) :=
  match l with
  | [] => Ok []
  | a :: l' => b ← f a; bs ← for_each f l'; Ok (b :: bs)
  end.

(** ** Python primitives *)

(** [x / y] on numbers: raises on a zero divisor. *)
Definition py_div (x y : Q) : result Q :=
  if Qeq_bool y 0 then Raise ZeroDivisionError else Ok (x / y).

Definition round_half_even (q : Q) : Z :=
  let f := Qfloor q in
  match Qcompare (q - inject_Z f) (1 # 2) with
  | Lt => f
  | Gt => (f + 1)%Z
  | Eq => if Z.even f then f else (f + 1)%Z
  end.

(** [round(x, 2)] *)
Definition py_round2 (x : Q) : Q :=
  inject_Z (round_half_even (x * 100)) * (1 # 100).

(** [sum(...)] over numbers *)
Definition py_sum (l : list Q) : Q := fold_left Qplus l 0.

Definition py_sumZ (l : list Z) : Z := fold_left Z.add l 0%Z.

(** [min(...)] and [max(...)] of an iterable: the first extreme element;
    they raise on an empty iterable. *)
Definition py_min (l : list Q) : result Q :=
  match l with
  | [] => Raise (ValueError "min() arg is an empty sequence")
  | x :: l' => Ok (fold_left (fun m y => if Qlt_le_dec y m then y else m) l' x)
  end.

Definition py_max (l : list Q) : result Q :=
  match l with
  | [] => Raise (ValueError "max() arg is an empty sequence")
  | x :: l' => Ok (fold_left (fun m y => if Qlt_le_dec m y then y else m) l' x)
  end.

(** [l.sort(key=key, reverse=True)]: a stable sort into descending key
    order.  Elements are inserted from the last to the first; an element
    goes in front of everything whose key is not strictly greater, so of
    two elements with equal keys the one that came first stays first. *)
Section PySort.
Context {A K : Type} (leb : K -> K -> bool) (key : A -> K).

Fixpoint insert_desc (x : A) (l : list A) : list A :=
  match l with
  | [] => [x]
  | y :: l' => if leb (key y) (key x) then x :: l else y :: insert_desc x l'
  end.

Definition sort_reverse (l : list A) : list A :=
  fold_right insert_desc [] l.


End PySort.

(** ** [lib/models/county.py] *)

Record County : Type := mkCounty {
  id : Z;
  name : string;
  population : Z;
  economic_output : Q;
  project_score : Z
}.




(** The [gdp_per_capita] property. *)
Definition gdp_per_capita (c : County) : Q :=
  if (population c =? 0)%Z then 0
  else economic_output c / inject_Z (population c).


(** ** [AllocationCalculator] *)

Record AllocationCalculator : Type := mkCalculator {
  budget_amount : Q;
  counties : list County
}.

(** [AllocationCalculator.__init__] *)
Definition init (budget_amount : Q) (counties : list County)
  : result AllocationCalculator :=
  match counties with
  | [] => Raise (ValueError "Cannot allocate budget to zero counties")
  | _ :: _ =>
      if Qle_bool budget_amount 0
      then Raise (ValueError "Budget amount must be greater than zero")
      else Ok (mkCalculator budget_amount counties)
  end.

(** The dictionaries the allocation methods return.  The keys
    ['gdp_per_capita'] and ['project_score'] are [rec_gdp_per_capita] and
    [rec_project_score] here; each is present only for the method that
    sets it. *)
Record AllocationDict : Type := mkAllocationDict {
  county_id : Z;
  county_name : string;
  amount : Q;
  percentage : Q;
  rec_gdp_per_capita : option Q;
  rec_project_score : option Z;
  method : string
}.

Definition equal_allocation (self : AllocationCalculator)
  : result (list AllocationDict) :=
  allocation_per_county ←
    py_div (budget_amount self) (inject_Z (Z.of_nat (length (counties self))));
  for_each (fun county =>
    share ← py_div allocation_per_county (budget_amount self);
    Ok {| county_id := id county;
          county_name := name county;
          amount := py_round2 allocation_per_county;
          percentage := py_round2 (share * 100);
          rec_gdp_per_capita := None;
          rec_project_score := None;
          method := "equal" |})
    (counties self).

(** The body of the last loop of [gdp_per_capita_allocation], for one
    [(county, gdp_per_capita, weight)] entry of [county_gdp_data]. *)
Definition gdp_record (self : AllocationCalculator) (total_inverse_weight : Q)
    (data : County * Q * Q) : result AllocationDict :=
  let '(county, gdp, weight) := data in
  fraction ← py_div weight total_inverse_weight;
  let allocation_amount := fraction * budget_amount self in
  share ← py_div allocation_amount (budget_amount self);
  Ok {| county_id := id county;
        county_name := name county;
        amount := py_round2 allocation_amount;
        percentage := py_round2 (share * 100);
        rec_gdp_per_capita := Some (py_round2 gdp);
        rec_project_score := None;
        method := "gdp_per_capita" |}.

(** [county_gdp_data] after the weight loop, and the accumulated total. *)
Definition gdp_weights (min_gdp max_gdp : Q) (cs : list County)
  : list (County * Q * Q) :=
  map (fun c => (c, gdp_per_capita c, max_gdp - gdp_per_capita c + min_gdp)) cs.

Definition gdp_unsorted (self : AllocationCalculator)
  : result (list AllocationDict) :=
  let gdps := map gdp_per_capita (counties self) in
  min_gdp ← py_min gdps;
  max_gdp ← py_max gdps;
  let data := gdp_weights min_gdp max_gdp (counties self) in
  let total_inverse_weight := py_sum (map snd data) in
  for_each (gdp_record self total_inverse_weight) data.

Definition gdp_per_capita_allocation (self : AllocationCalculator)
  : result (list AllocationDict) :=
  allocations ← gdp_unsorted self;
  Ok (sort_reverse Qle_bool amount allocations).

Definition score_of (a : AllocationDict) : Z :=
  match rec_project_score a with Some s => s | None => 0%Z end.

Definition project_record (self : AllocationCalculator) (total_project_score : Z)
    (county : County) : result AllocationDict :=
  fraction ← py_div (inject_Z (project_score county)) (inject_Z total_project_score);
  let allocation_amount := fraction * budget_amount self in
  share ← py_div allocation_amount (budget_amount self);
  Ok {| county_id := id county;
        county_name := name county;
        amount := py_round2 allocation_amount;
        percentage := py_round2 (share * 100);
        rec_gdp_per_capita := None;
        rec_project_score := Some (project_score county);
        method := "project_based" |}.

Definition project_unsorted (self : AllocationCalculator)
  : result (list AllocationDict) :=
  let total_project_score := py_sumZ (map project_score (counties self)) in
  if (total_project_score =? 0)%Z
  then Raise (ValueError "Total project score cannot be zero")
  else for_each (project_record self total_project_score) (counties self).

Definition project_based_allocation (self : AllocationCalculator)
  : result (list AllocationDict) :=
  allocations ← project_unsorted self;
  Ok (sort_reverse Z.leb score_of allocations).

Record Summary : Type := mkSummary {
  s_method : string;
  total_budget : Q;
  total_allocated : Q;
  remaining : Q;
  num_counties : nat;
  allocations : list AllocationDict
}.

Definition dispatch (self : AllocationCalculator) (method : string)
  : result (list AllocationDict) :=
  if String.eqb method "equal" then equal_allocation self
  else if String.eqb method "gdp_per_capita" then gdp_per_capita_allocation self
  else if String.eqb method "project_based" then project_based_allocation self
  else Raise (ValueError ("Unknown allocation method: " ++ method)).

Definition get_allocation_summary (self : AllocationCalculator) (method : string)
  : result Summary :=
  allocations ← dispatch self method;
  let total := py_sum (map amount allocations) in
  Ok {| s_method := method;
        total_budget := budget_amount self;
        total_allocated := py_round2 total;
        remaining := py_round2 (budget_amount self - total);
        num_counties := length (counties self);
        allocations := allocations |}.

(** ** [compare_allocation_methods] *)

Inductive MethodEntry : Type :=
| SummaryEntry (s : Summary)
| ErrorEntry (error : string).

Record Comparison : Type := mkComparison {
  cmp_budget_amount : Q;
  cmp_num_counties : nat;
  methods : gmap string MethodEntry
}.

Definition method_names : list string :=
  ["equal"; "gdp_per_capita"; "project_based"].

(** One iteration of the loop: the [try]/[except Exception] around the
    summary of one method. *)
Definition compare_step (calculator : AllocationCalculator)
    (methods : gmap string MethodEntry) (method : string)
  : gmap string MethodEntry :=
  match get_allocation_summary calculator method with
  | Ok summary => <[method := SummaryEntry summary]> methods
  | Raise e => <[method := ErrorEntry (str_exn e)]> methods
  end.

Definition compare_allocation_methods (budget_amount : Q) (counties : list County)
  : result Comparison :=
  calculator ← init budget_amount counties;
  Ok {| cmp_budget_amount := budget_amount;
        cmp_num_counties := length counties;
        methods := fold_left (compare_step calculator) method_names ∅ |}.

(** ** [lib/models/budget.py] and [lib/models/allocation.py]

    Strings are ASCII; [created_at] is left out of the rows. *)

Definition is_space (c : ascii) : bool :=
  let n := nat_of_ascii c in
  ((9 <=? n)%nat && (n <=? 13)%nat) || ((28 <=? n)%nat && (n <=? 32)%nat).

Fixpoint lstrip (l : list ascii) : list ascii :=
  match l with
  | c :: l' => if is_space c then lstrip l' else l
  | [] => []
  end.

(** [s.strip()] *)
Definition py_strip (s : string) : string :=
  string_of_list_ascii
    (rev (lstrip (rev (lstrip (list_ascii_of_string s))))).

Record Budget : Type := mkBudget {
  b_id : option Z;
  b_name : string;
  b_total_amount : Q;
  b_allocation_method : string
}.

Definition validate_name (name : string) : result string :=
  if ((String.length name =? 0)%nat || (String.length (py_strip name) =? 0)%nat)
  then Raise (ValueError "Budget name cannot be empty")
  else if (200 <? String.length name)%nat
  then Raise (ValueError "Budget name cannot exceed 200 characters")
  else Ok (py_strip name).

Definition validate_total_amount (total_amount : Q) : result Q :=
  if Qle_bool total_amount 0
  then Raise (ValueError "Total budget amount must be greater than 0")
  else Ok total_amount.

Definition valid_methods : list string :=
  ["equal"; "gdp_per_capita"; "project_based"].

Definition validate_allocation_method (allocation_method : string) : result string :=
  if existsb (String.eqb allocation_method) valid_methods
  then Ok allocation_method
  else Raise (ValueError
         "Allocation method must be one of: equal, gdp_per_capita, project_based").

(** [Budget(name=..., total_amount=..., allocation_method=...)]: the
    validators run as the attributes are set; the id is not set yet. *)
Definition Budget_new (name : string) (total_amount : Q) (allocation_method : string)
  : result Budget :=
  name' ← validate_name name;
  total_amount' ← validate_total_amount total_amount;
  allocation_method' ← validate_allocation_method allocation_method;
  Ok (mkBudget None name' total_amount' allocation_method').

Record Allocation : Type := mkAllocation {
  a_id : option Z;
  a_budget_id : option Z;
  a_county_id : Z;
  a_amount : Q
}.

Definition validate_amount (amount : Q) : result Q :=
  if Qlt_le_dec amount 0
  then Raise (ValueError "Allocation amount cannot be negative")
  else Ok amount.

(** [Allocation(budget_id=..., county_id=..., amount=...)] *)
Definition Allocation_new (budget_id : option Z) (county_id : Z) (amount : Q)
  : result Allocation :=
  amount' ← validate_amount amount;
  Ok (mkAllocation None budget_id county_id amount').

(** ** The database session

    The session of [get_db_session] is modelled as a transaction over a
    store of budget and allocation rows: [committed] is what the database
    holds durably, [working] is what the open transaction sees, [pending]
    are the objects added and not yet flushed.  Every statement sent to
    the database (an INSERT, the COMMIT, the SELECT of a refresh) takes the
    next number of [clock] and fails with a storage error when [fault]
    says so. *)

Record Store : Type := mkStore {
  budgets : list Budget;
  allocation_rows : list Allocation
}.

Inductive Pending : Type :=
| PBudget (b : Budget)
| PAllocation (a : Allocation).

Record Session : Type := mkSession {
  fault : nat -> option string;
  clock : nat;
  committed : Store;
  working : Store;
  pending : list Pending
}.

(** Computations on a session that may raise. *)
Definition M (A : Type) : Type := Session -> result A * Session.

#[global] Instance M_ret : MRet M := fun A a s => (Ok a, s).

#[global] Instance M_bind : MBind M := fun A B k m s =>
  match m s with
  | (Ok a, s') => k a s'
  | (Raise e, s') => (Raise e, s')
  end.

Definition raise {A} (e : exn) : M A := fun s => (Raise e, s).

(** A computation that does not touch the session. *)
Definition lift {A} (r : result A) : M A := fun s => (r, s).

Fixpoint for_eachM {A B} (f : A -> M B) (l : list A) : M (list B) :=
  match l with
  | [] => mret []
  | a :: l' => b ← f a; bs ← for_eachM f l'; mret (b :: bs)
  end.

(** [try: body  except Exception as e: handler e  finally: final] *)
Definition try_except_finally {A} (body : M A) (handler : exn -> M A)
    (final : M unit) : M A := fun s =>
  match body s with
  | (Ok a, s1) =>
      match final s1 with
      | (Ok _, s2) => (Ok a, s2)
      | (Raise e, s2) => (Raise e, s2)
      end
  | (Raise e, s1) =>
      let '(r, s2) := handler e s1 in
      match final s2 with
      | (Ok _, s3) => (r, s3)
      | (Raise e', s3) => (Raise e', s3)
      end
  end.

(** One statement sent to the database. *)
Definition statement : M unit := fun s =>
  let s' := mkSession (fault s) (S (clock s)) (committed s) (working s) (pending s) in
  match fault s (clock s) with
  | Some msg => (Raise (StorageError msg), s')
  | None => (Ok tt, s')
  end.

Definition get_db_session (fault : nat -> option string) (db : Store) : Session :=
  mkSession fault 0 db db [].

(** [session.add(obj)] *)
Definition add (obj : Pending) : M unit := fun s =>
  (Ok tt, mkSession (fault s) (clock s) (committed s) (working s) (pending s ++ [obj])).

Definition max_id (ids : list (option Z)) : Z :=
  fold_right (fun i m => match i with Some n => Z.max n m | None => m end) 0%Z ids.

(** The INSERT of one object inside the transaction; the row gets the
    next free id of its table. *)
Definition insert (obj : Pending) : M Pending := fun s =>
  match statement s with
  | (Raise e, s') => (Raise e, s')
  | (Ok _, s') =>
      let w := working s' in
      match obj with
      | PBudget b =>
          let b' := mkBudget (Some (max_id (map b_id (budgets w)) + 1)%Z)
                             (b_name b) (b_total_amount b) (b_allocation_method b) in
          (Ok (PBudget b'),
           mkSession (fault s') (clock s') (committed s')
                     (mkStore (budgets w ++ [b']) (allocation_rows w)) (pending s'))
      | PAllocation a =>
          let a' := mkAllocation (Some (max_id (map a_id (allocation_rows w)) + 1)%Z)
                                    (a_budget_id a) (a_county_id a) (a_amount a) in
          (Ok (PAllocation a'),
           mkSession (fault s') (clock s') (committed s')
                     (mkStore (budgets w) (allocation_rows w ++ [a'])) (pending s'))
      end
  end.

(** [session.flush()]: the pending objects are inserted in the order they
    were added; the objects come back with their ids. *)
Definition flush : M (list Pending) := fun s =>
  for_eachM insert (pending s)
    (mkSession (fault s) (clock s) (committed s) (working s) []).

(** The rows of the transaction become the rows of the database. *)
Definition make_durable : M unit := fun s =>
  (Ok tt, mkSession (fault s) (clock s) (working s) (working s) (pending s)).

(** [session.commit()]: flush, then the COMMIT. *)
Definition commit : M (list Pending) :=
  objs ← flush;
  _ ← statement;
  _ ← make_durable;
  mret objs.

(** [session.rollback()] *)
Definition rollback : M unit := fun s =>
  (Ok tt, mkSession (fault s) (clock s) (committed s) (committed s) []).

(** [session.close()]: whatever was not committed is gone. *)
Definition close : M unit := fun s =>
  (Ok tt, mkSession (fault s) (clock s) (committed s) (committed s) []).

Definition select_budget (b : Budget) : M Budget := fun s =>
  match List.find (fun r => bool_decide (b_id r = b_id b)) (budgets (working s)) with
  | Some r => (Ok r, s)
  | None => (Raise (StorageError "Could not refresh instance"), s)
  end.

Definition select_allocation (a : Allocation) : M Allocation := fun s =>
  match List.find (fun r => bool_decide (a_id r = a_id a))
                  (allocation_rows (working s)) with
  | Some r => (Ok r, s)
  | None => (Raise (StorageError "Could not refresh instance"), s)
  end.

(** [session.refresh(obj)]: read the row of the object back. *)
Definition refresh_budget (b : Budget) : M Budget :=
  _ ← statement;
  select_budget b.

Definition refresh_allocation (a : Allocation) : M Allocation :=
  _ ← statement;
  select_allocation a.

Definition as_budget (obj : Pending) (default : Budget) : Budget :=
  match obj with PBudget b => b | PAllocation _ => default end.

Definition as_allocations (objs : list Pending) : list Allocation :=
  flat_map (fun obj => match obj with PAllocation a => [a] | PBudget _ => [] end) objs.

(** ** [create_budget_with_allocations] *)

Definition create_budget_with_allocations (name : string) (total_amount : Q)
    (allocation_method : string) (counties : list County)
  : M (Budget * list Allocation) :=
  try_except_finally
    (budget ← lift (Budget_new name total_amount allocation_method);
     _ ← add (PBudget budget);
     flushed ← flush;
     let budget := as_budget (hd (PBudget budget) flushed) budget in
     calculator ← lift (init total_amount counties);
     allocation_summary ← lift (get_allocation_summary calculator allocation_method);
     _ ← for_eachM (fun allocation_data =>
            allocation ← lift (Allocation_new (b_id budget)
                                              (county_id allocation_data)
                                              (amount allocation_data));
            add (PAllocation allocation))
          (allocations allocation_summary);
     committed_objects ← commit;
     let allocation_objects := as_allocations committed_objects in
     budget ← refresh_budget budget;
     allocation_objects ← for_eachM refresh_allocation allocation_objects;
     mret (budget, allocation_objects))
    (fun e => _ ← rollback; raise e)
    close.

(** The call as its caller sees it: the value returned or the exception
    raised, and the database afterwards. *)
Definition run_create_budget (fault : nat -> option string) (db : Store)
    (name : string) (total_amount : Q) (allocation_method : string)
    (counties : list County) : result (Budget * list Allocation) * Store :=
  let '(r, s) := create_budget_with_allocations name total_amount
                   allocation_method counties (get_db_session fault db) in
  (r, committed s).

(** ** Vocabulary of the statements *)




(** What one iteration of the loop of [project_based_allocation] appends
    for [county]. *)
Definition project_row (b : Q) (total : Z) (c : County) (r : AllocationDict) : Prop :=
  county_id r = id c /\ county_name r = name c /\
  amount r = py_round2 (inject_Z (project_score c) / inject_Z total * b) /\
  percentage r =
    py_round2 (inject_Z (project_score c) / inject_Z total * b / b * 100) /\
  rec_gdp_per_capita r = None /\
  rec_project_score r = Some (project_score c) /\
  method r = "project_based".


(** The entry the loop stores under a method's key. *)
Definition entry_of (r : result Summary) : MethodEntry :=
  match r with
  | Ok summary => SummaryEntry summary
  | Raise e => ErrorEntry (str_exn e)
  end.

(** A computation that leaves the rows of the database alone. *)
Definition keeps_committed {A} (m : M A) : Prop :=
  forall s r s', m s = (r, s') -> committed s' = committed s.

(** The row a pending allocation becomes. *)
Definition same_allocation (n row : Allocation) : Prop :=
  a_budget_id row = a_budget_id n /\ a_county_id row = a_county_id n /\
  a_amount row = a_amount n.


(** The counties of [seed_sample_data] in [lib/helpers/db_init.py], with
    the ids the database gives them. *)
Definition sample_counties : list County :=
  [ mkCounty 1 "Nairobi" 4397073 2500000000 9;
    mkCounty 2 "Mombasa" 1208333 800000000 8;
    mkCounty 3 "Kiambu" 2417735 600000000 7;
    mkCounty 4 "Nakuru" 2162202 450000000 6;
    mkCounty 5 "Machakos" 1421932 300000000 5;
    mkCounty 6 "Kajiado" 1117840 200000000 6 ].

(** A county the validators accept that has no economic output. *)
Definition idle_county : County := mkCounty 7 "Idle" 10 0 5.

(** A database with no rows, and one whose [k]-th statement fails. *)
Definition empty_store : Store := mkStore [] [].

Definition fail_at (k : nat) (n : nat) : option string :=
  if (n =? k)%nat then Some "database is locked" else None.


(** The rows that come out of inserting [news] one after the other into a
    table whose highest id is [m]. *)
Fixpoint assign_ids (m : Z) (news : list Allocation) : list Allocation :=
  match news with
  | [] => []
  | n :: news' =>
      mkAllocation (Some (m + 1)%Z) (a_budget_id n) (a_county_id n) (a_amount n)
        :: assign_ids (m + 1) news'
  end.


(** ** More of [lib/models/budget.py] and [lib/models/allocation.py] *)




(** An element of the list given to [Allocation.create_bulk]: a
    dictionary with the keys [budget_id], [county_id] and [amount] (a
    dictionary that lacks one of them is not modelled). *)
Record AllocationData : Type := mkAllocationData {
  d_budget_id : Z;
  d_county_id : Z;
  d_amount : Q
}.

(** [Allocation.create_bulk] *)
Definition create_bulk (allocations_data : list AllocationData)
  : M (list Allocation) :=
  try_except_finally
    (_ ← for_eachM (fun data =>
            allocation ← lift (Allocation_new (Some (d_budget_id data))
                                              (d_county_id data) (d_amount data));
            add (PAllocation allocation))
          allocations_data;
     committed_objects ← commit;
     allocations ← for_eachM refresh_allocation (as_allocations committed_objects);
     mret allocations)
    (fun e => _ ← rollback; raise e)
    close.

Definition run_create_bulk (fault : nat -> option string) (db : Store)
    (allocations_data : list AllocationData) : result (list Allocation) * Store :=
  let '(r, s) := create_bulk allocations_data (get_db_session fault db) in
  (r, committed s).

(** ** [County.validate_name]

    [str.title()] on ASCII strings: a letter that follows a letter is
    lowered, any other letter is raised. *)

Definition is_upper (c : ascii) : bool :=
  ((65 <=? nat_of_ascii c)%nat && (nat_of_ascii c <=? 90)%nat).

Definition is_lower (c : ascii) : bool :=
  ((97 <=? nat_of_ascii c)%nat && (nat_of_ascii c <=? 122)%nat).

Definition is_cased (c : ascii) : bool := is_upper c || is_lower c.

Definition to_upper (c : ascii) : ascii :=
  if is_lower c then ascii_of_nat (nat_of_ascii c - 32) else c.

Definition to_lower (c : ascii) : ascii :=
  if is_upper c then ascii_of_nat (nat_of_ascii c + 32) else c.

Fixpoint title_from (previous_is_cased : bool) (l : list ascii) : list ascii :=
  match l with
  | [] => []
  | c :: l' =>
      (if previous_is_cased then to_lower c else to_upper c)
        :: title_from (is_cased c) l'
  end.

(** [s.title()] *)
Definition py_title (s : string) : string :=
  string_of_list_ascii (title_from false (list_ascii_of_string s)).

Definition County_validate_name (name : string) : result string :=
  if ((String.length name =? 0)%nat || (String.length (py_strip name) =? 0)%nat)
  then Raise (ValueError "County name cannot be empty")
  else if (100 <? String.length name)%nat
  then Raise (ValueError "County name cannot exceed 100 characters")
  else Ok (py_title (py_strip name)).

(** Two strings that differ at most in the case of their letters. *)
Definition same_up_to_case (s1 s2 : string) : Prop :=
  Forall2 (fun a b => to_lower a = to_lower b)
          (list_ascii_of_string s1) (list_ascii_of_string s2).

(** [strip] on lists of characters, and the condition under which it
    leaves a list alone, read off the list of which characters are
    spaces: the first one is not. *)
Definition strip_list (l : list ascii) : list ascii :=
  rev (lstrip (rev (lstrip l))).

Definition lead_ok (spaces : list bool) : Prop :=
  match spaces with
  | b :: _ => b = false
  | [] => True
  end.

(** ** The errors of a call *)

(** A computation on a session whose errors all satisfy [P]. *)
Definition raises_only {A} (m : M A) (P : exn -> Prop) : Prop :=
  forall s e s', m s = (Raise e, s') -> P e.

(** The messages of the [ValueError]s that
    [create_budget_with_allocations] lets through. *)
Definition creation_messages : list string :=
  [ "Budget name cannot be empty";
    "Budget name cannot exceed 200 characters";
    "Total budget amount must be greater than 0";
    "Allocation method must be one of: equal, gdp_per_capita, project_based";
    "Cannot allocate budget to zero counties";
    "Total project score cannot be zero";
    "Allocation amount cannot be negative" ].

Definition storage_error (e : exn) : Prop := exists msg, e = StorageError msg.

Definition creation_error (e : exn) : Prop :=
  storage_error e \/
  e = ZeroDivisionError \/
  (exists msg, e = ValueError msg /\ In msg creation_messages).


(** * Properties *)

(** ** Rounding *)











(** ** Loops, sums and extremes *)

Lemma for_each_Forall2 {A B} (f : A -> result B) (l : list A) (bs : list B) :
  for_each f l = Ok bs <-> Forall2 (fun a b => f a = Ok b) l bs.
Proof.
  revert bs. induction l as [|a l IH]; intros bs; simpl.
  - split.
    + intros [= <-]. constructor.
    + intros H. inversion H. reflexivity.
  - split.
    + destruct (f a) as [b|e] eqn:Fa; simpl; [|discriminate].
      destruct (for_each f l) as [bs'|e] eqn:Fl; simpl; [|discriminate].
      intros [= <-]. constructor; [assumption|]. now apply IH.
    + intros H. inversion H as [|a' b l' bs' Fa Fl]; subst.
      apply IH in Fl. rewrite Fa, Fl. reflexivity.
Qed.

Lemma for_each_total {A B} (f : A -> result B) (l : list A) :
  Forall (fun a => exists b, f a = Ok b) l -> exists bs, for_each f l = Ok bs.
Proof.
  induction 1 as [|a l [b Fa] _ [bs Fl]]; simpl.
  - now exists [].
  - exists (b :: bs). now rewrite Fa, Fl.
Qed.



Lemma fold_left_Zplus (l : list Z) (a : Z) :
  fold_left Z.add l a = (a + py_sumZ l)%Z.
Proof.
  unfold py_sumZ. revert a. induction l as [|x l IH]; intros a; cbn [fold_left].
  - lia.
  - rewrite IH, (IH (0 + x)%Z). lia.
Qed.

Lemma py_sumZ_cons (x : Z) (l : list Z) : py_sumZ (x :: l) = (x + py_sumZ l)%Z.
Proof. unfold py_sumZ at 1. cbn [fold_left]. now rewrite fold_left_Zplus. Qed.



(** ** The stable descending sort *)

Section PySortFacts.
Context {A K : Type} (leb : K -> K -> bool) (key : A -> K).
Hypothesis leb_total : forall a b, leb a b = true \/ leb b a = true.
Hypothesis leb_trans : forall a b c, leb a b = true -> leb b c = true -> leb a c = true.

Lemma insert_desc_perm (x : A) (l : list A) :
  Permutation (insert_desc leb key x l) (x :: l).
Proof.
  induction l as [|y l IH]; simpl; [reflexivity|].
  destruct (leb (key y) (key x)); [reflexivity|].
  rewrite IH. apply perm_swap.
Qed.

Lemma sort_reverse_perm (l : list A) : Permutation (sort_reverse leb key l) l.
Proof.
  induction l as [|x l IH]; simpl; [reflexivity|].
  rewrite insert_desc_perm. now constructor.
Qed.




End PySortFacts.





(** ** The constructor *)

Lemma init_Ok_inv (b : Q) (cs : list County) (self : AllocationCalculator) :
  init b cs = Ok self -> self = mkCalculator b cs /\ cs <> [] /\ 0 < b.
Proof.
  unfold init. destruct cs as [|c cs]; [discriminate|].
  destruct (Qle_bool b 0) eqn:E; [discriminate|].
  intros [= <-]. repeat split; [discriminate|].
  destruct (Qlt_le_dec 0 b) as [H|H]; [assumption|].
  apply Qle_bool_iff in H. congruence.
Qed.

Lemma init_Ok (b : Q) (cs : list County) :
  cs <> [] -> 0 < b -> init b cs = Ok (mkCalculator b cs).
Proof.
  intros N P. unfold init. destruct cs as [|c cs]; [congruence|].
  destruct (Qle_bool b 0) eqn:E; [|reflexivity].
  apply Qle_bool_iff in E. lra.
Qed.

Lemma init_raises (b : Q) (cs : list County) :
  cs = [] \/ b <= 0 -> exists msg, init b cs = Raise (ValueError msg).
Proof.
  intros [->|H]; [now eexists|].
  apply Qle_bool_iff in H. unfold init. rewrite H. destruct cs; now eexists.
Qed.


(** ** [compare_allocation_methods]: the constructor comes first *)

(** C10: the calculator is built before the loop that isolates the
    methods' errors, so on an empty county list or a non-positive amount
    the error of the constructor is the error of the routine, and no
    mapping is returned. *)
Theorem compare_raises_constructor_error (b : Q) (cs : list County) :
  cs = [] \/ b <= 0 ->
  exists msg, init b cs = Raise (ValueError msg) /\
              compare_allocation_methods b cs = Raise (ValueError msg).
Proof.
  intros H. apply init_raises in H as [msg H].
  exists msg. split; [assumption|].
  unfold compare_allocation_methods. now rewrite H.
Qed.

Lemma compare_raises_constructor_error_witness :
  exists msg, init (-5) [] = Raise (ValueError msg) /\
              compare_allocation_methods (-5) [] = Raise (ValueError msg).
Proof. apply (compare_raises_constructor_error (-5) []). now left. Defined.

(** ** Shared arithmetic *)

Lemma py_div_Ok (x y : Q) : ~ y == 0 -> py_div x y = Ok (x / y).
Proof.
  intros N. unfold py_div. destruct (Qeq_bool y 0) eqn:E; [|reflexivity].
  apply Qeq_bool_iff in E. contradiction.
Qed.











(** ** Project-score allocation *)


Lemma score_sum_lower (cs : list County) :
  Forall (fun c => (1 <= project_score c)%Z) cs ->
  (Z.of_nat (length cs) <= py_sumZ (map project_score cs))%Z.
Proof.
  induction 1 as [|c cs H _ IH]; cbn [map length].
  - reflexivity.
  - rewrite py_sumZ_cons. lia.
Qed.

Lemma inject_Z_nonzero (z : Z) : z <> 0%Z -> ~ inject_Z z == 0.
Proof.
  intros N E. apply N. unfold Qeq in E. cbn in E. lia.
Qed.

Lemma project_record_Ok (self : AllocationCalculator) (total : Z) (c : County) :
  total <> 0%Z -> ~ budget_amount self == 0 ->
  exists r, project_record self total c = Ok r /\
            project_row (budget_amount self) total c r.
Proof.
  intros T B. unfold project_record.
  rewrite py_div_Ok by now apply inject_Z_nonzero. cbn.
  rewrite py_div_Ok by assumption. cbn.
  eexists. split; [reflexivity|]. now repeat split.
Qed.

Lemma project_unsorted_Ok (b : Q) (cs : list County) :
  cs <> [] -> 0 < b -> Forall (fun c => (1 <= project_score c)%Z) cs ->
  exists pre, project_unsorted (mkCalculator b cs) = Ok pre /\
    Forall2 (project_row b (py_sumZ (map project_score cs))) cs pre.
Proof.
  intros N P V. pose proof (score_sum_lower cs V) as L.
  assert (T : py_sumZ (map project_score cs) <> 0%Z).
  { destruct cs; [congruence|]. cbn [length] in L. lia. }
  unfold project_unsorted. cbn [counties].
  apply Z.eqb_neq in T as T'. rewrite T'.
  assert (B : ~ budget_amount (mkCalculator b cs) == 0) by (cbn; lra).
  destruct (for_each_total (project_record (mkCalculator b cs)
              (py_sumZ (map project_score cs))) cs) as [pre Hpre].
  { rewrite List.Forall_forall. intros c _.
    destruct (project_record_Ok (mkCalculator b cs) _ c T B) as (r & Hr & _).
    now exists r. }
  exists pre. split; [assumption|].
  apply for_each_Forall2 in Hpre.
  eapply Forall2_impl; [exact Hpre|]. cbn beta. intros c r Hr.
  destruct (project_record_Ok (mkCalculator b cs) _ c T B) as (r' & Hr' & R).
  assert (E : r = r') by congruence. rewrite E. exact R.
Qed.

(** C9: when the scores sum to zero [project_based_allocation] raises its
    zero-total error.  On a constructed calculator whose counties all have
    a score between 1 and 10 the total is positive, so that branch is not
    taken: the method returns its list. *)
Theorem project_zero_total_unreachable (self : AllocationCalculator) :
  (py_sumZ (map project_score (counties self)) = 0%Z ->
   project_based_allocation self =
     Raise (ValueError "Total project score cannot be zero")) /\
  (forall b cs, init b cs = Ok self ->
     Forall (fun c => (1 <= project_score c <= 10)%Z) cs ->
     (0 < py_sumZ (map project_score (counties self)))%Z /\
     exists allocs, project_based_allocation self = Ok allocs).
Proof.
  split.
  - intros Z. unfold project_based_allocation, project_unsorted. now rewrite Z.
  - intros b cs I V. apply init_Ok_inv in I as (-> & N & P). cbn [counties].
    assert (V' : Forall (fun c => (1 <= project_score c)%Z) cs).
    { eapply List.Forall_impl; [|exact V]. cbn. lia. }
    split.
    + pose proof (score_sum_lower cs V') as L.
      destruct cs; [congruence|]. cbn [length] in L. lia.
    + destruct (project_unsorted_Ok b cs N P V') as (pre & Hpre & _).
      unfold project_based_allocation. rewrite Hpre. cbn. now eexists.
Qed.






(** ** Equal allocation *)

Lemma for_each_rel {A B} (f : A -> result B) (R : A -> B -> Prop) (l : list A) :
  (forall a, In a l -> exists b, f a = Ok b /\ R a b) ->
  exists bs, for_each f l = Ok bs /\ Forall2 R l bs.
Proof.
  induction l as [|a l IH]; intros H.
  - exists []. split; [reflexivity|constructor].
  - destruct (H a (or_introl eq_refl)) as (b0 & Fa & Ra).
    destruct IH as (bs & Fl & Rl). { intros a' Ha'. apply H. now right. }
    exists (b0 :: bs). split; [|now constructor].
    cbn [for_each]. rewrite Fa. cbn. rewrite Fl. reflexivity.
Qed.





(** ** GDP-per-capita allocation *)



















(** ** The summary *)














(** ** The comparison *)

Lemma compare_step_insert (calculator : AllocationCalculator)
    (ms : gmap string MethodEntry) (m : string) :
  compare_step calculator ms m =
  <[m := entry_of (get_allocation_summary calculator m)]> ms.
Proof.
  unfold compare_step, entry_of.
  now destruct (get_allocation_summary calculator m).
Qed.

(** C7: on a non-empty county list and a positive amount the routine
    returns a mapping whose keys are exactly the three method names; the
    entry of each method is its own summary, or the message of its own
    error, whatever the other two methods did. *)
Theorem compare_allocation_methods_spec (b : Q) (cs : list County) :
  cs <> [] -> 0 < b ->
  exists cmp,
    compare_allocation_methods b cs = Ok cmp /\
    dom (methods cmp) = {[ "equal"; "gdp_per_capita"; "project_based" ]} /\
    size (methods cmp) = 3%nat /\
    forall m, In m method_names ->
      methods cmp !! m =
        Some (match get_allocation_summary (mkCalculator b cs) m with
              | Ok summary => SummaryEntry summary
              | Raise e => ErrorEntry (str_exn e)
              end).
Proof.
  intros N P. unfold compare_allocation_methods.
  rewrite (init_Ok b cs N P). cbn [mbind result_bind].
  eexists. split; [reflexivity|]. cbn [methods].
  unfold method_names. cbn [fold_left]. rewrite !compare_step_insert.
  set (calc := mkCalculator b cs).
  assert (D : dom (<["project_based" := entry_of (get_allocation_summary calc "project_based")]>
                   (<["gdp_per_capita" := entry_of (get_allocation_summary calc "gdp_per_capita")]>
                    (<["equal" := entry_of (get_allocation_summary calc "equal")]>
                     (∅ : gmap string MethodEntry)))) =
              ({[ "equal"; "gdp_per_capita"; "project_based" ]} : gset string)).
  { rewrite !dom_insert_L, dom_empty_L. set_solver. }
  split; [exact D|]. split.
  - rewrite <- size_dom, D. reflexivity.
  - intros m [<-|[<-|[<-|[]]]]; fold (entry_of (get_allocation_summary calc "equal"));
      fold (entry_of (get_allocation_summary calc "gdp_per_capita"));
      fold (entry_of (get_allocation_summary calc "project_based")).
    + rewrite lookup_insert_ne by discriminate.
      rewrite lookup_insert_ne by discriminate.
      now rewrite lookup_insert_eq.
    + rewrite lookup_insert_ne by discriminate.
      now rewrite lookup_insert_eq.
    + now rewrite lookup_insert_eq.
Qed.

(** ** Budget creation *)

Lemma M_bind_inv {A B} (m : M A) (k : A -> M B) (s s' : Session) (r : result B) :
  (m ≫= k) s = (r, s') ->
  (exists e, m s = (Raise e, s') /\ r = Raise e) \/
  (exists a s1, m s = (Ok a, s1) /\ k a s1 = (r, s')).
Proof.
  unfold mbind, M_bind. destruct (m s) as [[a|e] s1]; intros H.
  - right. now exists a, s1.
  - left. injection H as <- <-. now exists e.
Qed.

Lemma keeps_bind {A B} (m : M A) (k : A -> M B) :
  keeps_committed m -> (forall a, keeps_committed (k a)) -> keeps_committed (m ≫= k).
Proof.
  intros Hm Hk s r s' H.
  apply M_bind_inv in H as [(e & H & _)|(a & s1 & H1 & H2)].
  - eapply Hm, H.
  - rewrite (Hk a _ _ _ H2). eapply Hm, H1.
Qed.

Lemma keeps_for_eachM {A B} (f : A -> M B) (l : list A) :
  (forall a, keeps_committed (f a)) -> keeps_committed (for_eachM f l).
Proof.
  intros Hf. induction l as [|a l IH]; cbn [for_eachM].
  - intros s r s' [= _ <-]. reflexivity.
  - apply keeps_bind; [apply Hf|]. intros b0.
    apply keeps_bind; [apply IH|]. intros bs s r s' [= _ <-]. reflexivity.
Qed.

Lemma keeps_statement : keeps_committed statement.
Proof.
  intros s r s'. unfold statement.
  destruct (fault s (clock s)); intros [= _ <-]; reflexivity.
Qed.


Lemma keeps_refresh_allocation (a : Allocation) :
  keeps_committed (refresh_allocation a).
Proof.
  apply keeps_bind; [apply keeps_statement|]. intros _ s r s'.
  unfold select_allocation. destruct (List.find _ _); intros [= _ <-]; reflexivity.
Qed.

(** The handler and the [finally] clause do not change what the database
    holds: the outcome of the body is the outcome of the call. *)
Lemma try_except_finally_committed {A} (body : M A) (s s1 : Session) (r : result A) :
  body s = (r, s1) ->
  exists s2, try_except_finally body (fun e => rollback ≫= fun _ => raise e) close s
               = (r, s2) /\ committed s2 = committed s1.
Proof.
  intros H. unfold try_except_finally. rewrite H.
  destruct r as [a|e]; cbn; eexists; split; reflexivity.
Qed.

Lemma insert_allocations (news : list Allocation) :
  forall s r s',
    for_eachM insert (map PAllocation news) s = (r, s') ->
    committed s' = committed s /\ fault s' = fault s /\
    ((exists e, r = Raise e) \/
     (exists objs, r = Ok objs /\
        clock s' = (clock s + length news)%nat /\
        budgets (working s') = budgets (working s) /\
        allocation_rows (working s') =
          (allocation_rows (working s) ++ as_allocations objs)%list /\
        Forall2 same_allocation news (as_allocations objs) /\
        forall k, (clock s <= k < clock s')%nat -> fault s k = None)).
Proof.
  induction news as [|n news IH]; intros s r s' H; cbn [map for_eachM] in H.
  - injection H as <- <-. split; [reflexivity|]. split; [reflexivity|].
    right. exists []. cbn [as_allocations flat_map length].
    split; [reflexivity|]. split; [lia|]. split; [reflexivity|].
    split; [now rewrite app_nil_r|]. split; [constructor|]. intros k Hk. lia.
  - apply M_bind_inv in H as [(e & H & ->)|(obj & s1 & H1 & H)].
    + unfold insert, statement in H. destruct (fault s (clock s)) eqn:F.
      * injection H as _ <-. split; [reflexivity|]. split; [reflexivity|].
        left. now eexists.
      * destruct n; discriminate.
    + unfold insert, statement in H1.
      destruct (fault s (clock s)) eqn:F; [discriminate|].
      cbn [working fault clock committed pending] in H1.
      injection H1 as <- <-.
      apply M_bind_inv in H as [(e & H & ->)|(objs & s2 & H2 & H)].
      * apply IH in H as (C & Fa & _). cbn in C, Fa.
        split; [assumption|]. split; [assumption|]. left. now eexists.
      * injection H as <- <-.
        apply IH in H2 as (C & Fa & [(e & [=])|(objs' & [= <-] & Ck & Bu & Al & F2 & Cl)]).
        cbn [working fault clock committed pending budgets allocation_rows]
          in C, Fa, Ck, Bu, Al, Cl.
        split; [assumption|]. split; [assumption|]. right.
        eexists. split; [reflexivity|].
        cbn [as_allocations flat_map app length]. fold (as_allocations objs).
        split; [lia|]. split; [assumption|].
        split; [rewrite Al, <- app_assoc; reflexivity|].
        split; [constructor; [now repeat split|assumption]|].
        intros k Hk. destruct (Nat.eq_dec k (clock s)) as [->|Ne]; [assumption|].
        apply Cl. lia.
Qed.



Lemma commit_allocations (s : Session) (news : list Allocation) :
  pending s = map PAllocation news ->
  forall r s', commit s = (r, s') ->
    ((exists e, r = Raise e) /\ committed s' = committed s) \/
    (exists objs, r = Ok objs /\
       committed s' = mkStore (budgets (working s))
                        (allocation_rows (working s) ++ as_allocations objs) /\
       Forall2 same_allocation news (as_allocations objs) /\
       forall k, (clock s <= k <= clock s + length news)%nat -> fault s k = None).
Proof.
  intros Pe r s' H. unfold commit in H.
  apply M_bind_inv in H as [(e & H & ->)|(objs & s1 & H1 & H)].
  - unfold flush in H. rewrite Pe in H.
    apply insert_allocations in H as (C & _). left. split; [now eexists|exact C].
  - unfold flush in H1. rewrite Pe in H1.
    apply insert_allocations in H1
      as (C & Fa & [(e & [=])|(objs' & [= <-] & Ck & Bu & Al & F2 & Cl)]).
    cbn [working fault clock committed pending] in C, Fa, Ck, Bu, Al, Cl.
    apply M_bind_inv in H as [(e & H & ->)|(u & s2 & H2 & H)].
    + left. split; [now eexists|]. now rewrite (keeps_statement _ _ _ H).
    + unfold statement in H2. destruct (fault s1 (clock s1)) eqn:F; [discriminate|].
      injection H2 as _ <-.
      unfold mbind, M_bind, make_durable, mret, M_ret in H.
      cbn [working fault clock committed pending] in H.
      injection H as <- <-. right. exists objs. split; [reflexivity|].
      cbn [committed]. split.
      * destruct (working s1) as [bs rs]. cbn in Bu, Al. now rewrite Bu, Al.
      * split; [assumption|]. intros k Hk.
        destruct (Nat.eq_dec k (clock s1)) as [->|Ne].
        -- now rewrite <- Fa.
        -- apply Cl. lia.
Qed.





(** ** The statements at concrete inputs *)










Lemma compare_allocation_methods_spec_witness :
  exists cmp,
    compare_allocation_methods 100 [idle_county] = Ok cmp /\
    dom (methods cmp) = {[ "equal"; "gdp_per_capita"; "project_based" ]}.
Proof.
  destruct (compare_allocation_methods_spec 100 [idle_county]
              (ltac:(discriminate) : [idle_county] <> [])
              (eq_refl : 0 < 100))
    as (cmp & H & D & _).
  exists cmp. split; assumption.
Defined.

(** Counties whose scores sum to zero (here a single score of 0, which the
    validator would reject) take the guarded branch. *)
Example project_zero_total_raises :
  project_based_allocation (mkCalculator 100 [mkCounty 8 "Unscored" 10 100 0]) =
  Raise (ValueError "Total project score cannot be zero").
Proof. reflexivity. Qed.

(** When the GDP method divides by zero its key holds the message of the
    error, and the two other keys hold summaries. *)
Example compare_isolates_the_failing_method :
  exists cmp s1 s3,
    compare_allocation_methods 100 [idle_county] = Ok cmp /\
    methods cmp !! "equal" = Some (SummaryEntry s1) /\
    methods cmp !! "gdp_per_capita" = Some (ErrorEntry "float division by zero") /\
    methods cmp !! "project_based" = Some (SummaryEntry s3).
Proof.
  eexists _, _, _. split; [reflexivity|].
  repeat split; vm_compute; reflexivity.
Qed.


(** Without a failing statement the budget and six allocations are
    stored. *)
Example create_budget_stores_all :
  exists budget rows db',
    run_create_budget (fun _ => None) empty_store "FY 2025" 1000000 "equal"
      sample_counties = (Ok (budget, rows), db') /\
    budgets db' = [budget] /\ allocation_rows db' = rows /\ length rows = 6%nat.
Proof.
  eexists _, _, _. split; [vm_compute; reflexivity|]. repeat split.
Qed.

(** A failure of the refresh after the COMMIT reaches the caller with the
    rows stored: the statement after the six INSERTs of allocations and the
    COMMIT is statement 8. *)
Example create_budget_refresh_failure :
  exists db',
    run_create_budget (fail_at 8) empty_store "FY 2025" 1000000 "equal"
      sample_counties = (Raise (StorageError "database is locked"), db') /\
    length (budgets db') = 1%nat /\ length (allocation_rows db') = 6%nat.
Proof.
  eexists. split; [vm_compute; reflexivity|]. split; reflexivity.
Qed.

(** * Further properties of the allocation methods *)

(** ** Every method hands out fractions of the budget *)











(** ** Sums, bounds and the remainder *)





(** ** When the methods raise *)







(** On any constructed calculator, whatever the scores of its counties,
    the project method raises exactly when the scores add up to zero, and
    returns one record per county otherwise. *)
Theorem project_allocation_raises_iff
    (b : Q) (cs : list County) (self : AllocationCalculator) :
  init b cs = Ok self ->
  (project_based_allocation self =
     Raise (ValueError "Total project score cannot be zero") <->
   py_sumZ (map project_score cs) = 0%Z) /\
  ((exists allocs, project_based_allocation self = Ok allocs /\
                   length allocs = length cs) <->
   py_sumZ (map project_score cs) <> 0%Z).
Proof.
  intros I. apply init_Ok_inv in I as (-> & N & P).
  assert (Zero : py_sumZ (map project_score cs) = 0%Z ->
                 project_based_allocation (mkCalculator b cs) =
                 Raise (ValueError "Total project score cannot be zero")).
  { intros Z. unfold project_based_allocation, project_unsorted. cbn [counties].
    now rewrite Z. }
  assert (Pos : py_sumZ (map project_score cs) <> 0%Z ->
                exists allocs, project_based_allocation (mkCalculator b cs) = Ok allocs /\
                               length allocs = length cs).
  { intros T. unfold project_based_allocation, project_unsorted. cbn [counties].
    apply Z.eqb_neq in T as T'. rewrite T'.
    destruct (for_each_rel (project_record (mkCalculator b cs)
                (py_sumZ (map project_score cs)))
                (fun _ _ => True) cs) as (pre & Hpre & Rows).
    { intros c _.
      destruct (project_record_Ok (mkCalculator b cs) _ c T) as (r & Hr & _);
        [cbn; lra|]. now exists r. }
    rewrite Hpre. cbn [mbind result_bind]. eexists. split; [reflexivity|].
    rewrite (Permutation_length (sort_reverse_perm Z.leb score_of pre)).
    symmetry. eapply Forall2_length, Rows. }
  destruct (Z.eq_dec (py_sumZ (map project_score cs)) 0%Z) as [Z|T]; split; split; intros H.
  - assumption.
  - now apply Zero.
  - destruct H as (allocs & H & _). rewrite (Zero Z) in H. discriminate.
  - contradiction.
  - destruct (Pos T) as (allocs & H' & _). rewrite H in H'. discriminate.
  - contradiction.
  - assumption.
  - now apply Pos.
Qed.

(** ** Degenerate data *)






(** ** The comparison over valid counties *)


Lemma summary_Raise (self : AllocationCalculator) (m : string) (e : exn) :
  dispatch self m = Raise e -> get_allocation_summary self m = Raise e.
Proof. intros H. unfold get_allocation_summary. now rewrite H. Qed.


(** * Further properties of the storage functions *)

(** ** Running the session forward *)






Lemma M_bind_ok {A B} (m : M A) (k : A -> M B) (s s1 : Session) (a : A) :
  m s = (Ok a, s1) -> (m ≫= k) s = k a s1.
Proof. intros H. unfold mbind, M_bind. now rewrite H. Qed.

Lemma M_bind_raise {A B} (m : M A) (k : A -> M B) (s s1 : Session) (e : exn) :
  m s = (Raise e, s1) -> (m ≫= k) s = (Raise e, s1).
Proof. intros H. unfold mbind, M_bind. now rewrite H. Qed.


(** The same loop when some element is rejected: nothing reaches the
    database. *)
Lemma add_loop_raise {A} (mk : A -> result Allocation) (e : exn) (l : list A) :
  Forall (fun a => (exists x, mk a = Ok x) \/ mk a = Raise e) l ->
  Exists (fun a => mk a = Raise e) l ->
  forall s, exists s',
    for_eachM (fun a => lift (mk a) ≫= fun x => add (PAllocation x)) l s =
      (Raise e, s') /\
    committed s' = committed s /\ clock s' = clock s.
Proof.
  induction 1 as [|a l [[x E]|E] _ IH]; intros Ex s.
  - inversion Ex.
  - inversion Ex as [? ? Bad|? ? Ex']; subst; [congruence|].
    destruct (IH Ex' (mkSession (fault s) (clock s) (committed s) (working s)
                                (pending s ++ [PAllocation x])))
      as (s' & H & C & K).
    exists s'. split; [|split; assumption].
    cbn [for_eachM]. erewrite M_bind_ok.
    2:{ erewrite M_bind_ok; [|unfold lift; rewrite E; reflexivity]. reflexivity. }
    now erewrite M_bind_raise; [|exact H].
  - exists s. split; [|split; reflexivity].
    cbn [for_eachM]. erewrite M_bind_raise; [reflexivity|].
    erewrite M_bind_raise; [reflexivity|]. unfold lift. now rewrite E.
Qed.



Lemma assign_ids_same (m : Z) (news : list Allocation) :
  Forall2 same_allocation news (assign_ids m news).
Proof.
  revert m. induction news as [|n news IH]; intros m; cbn [assign_ids];
    constructor; [now repeat split|apply IH].
Qed.











(** ** The totals of a budget *)





(** ** [Allocation.create_bulk] *)

Lemma add_loop_inv {A} (mk : A -> result Allocation) (l : list A) :
  forall s r s',
    for_eachM (fun a => lift (mk a) ≫= fun x => add (PAllocation x)) l s = (r, s') ->
    committed s' = committed s /\ fault s' = fault s /\ clock s' = clock s /\
    working s' = working s /\
    ((exists e, r = Raise e) \/
     (exists news, pending s' = (pending s ++ map PAllocation news)%list /\
                   Forall2 (fun a n => mk a = Ok n) l news)).
Proof.
  induction l as [|a l IH]; intros s r s' H; cbn [for_eachM] in H.
  - injection H as <- <-. repeat split. right. exists [].
    split; [now rewrite app_nil_r|constructor].
  - apply M_bind_inv in H as [(e & H & ->)|(u & s1 & H1 & H)].
    + apply M_bind_inv in H as [(e' & H & _)|(n & s1 & H1 & H)].
      * injection H as _ <-. repeat split. left. now eexists.
      * discriminate.
    + apply M_bind_inv in H1 as [(e' & H1 & [=])|(n & s0 & H0 & H1)].
      unfold lift in H0. injection H0 as H0 <-.
      injection H1 as _ <-.
      apply M_bind_inv in H as [(e & H & ->)|(us & s2 & H2 & H)].
      * apply IH in H as (C & Fa & Ck & W & _). cbn in C, Fa, Ck, W.
        repeat split; try assumption. left. now eexists.
      * injection H as _ <-.
        apply IH in H2 as (C & Fa & Ck & W & [(e & [=])|(news & Pe & F2)]).
        cbn in C, Fa, Ck, W, Pe.
        repeat split; try assumption. right. exists (n :: news). split.
        -- rewrite Pe, <- app_assoc. reflexivity.
        -- now constructor.
Qed.

(** [Allocation.create_bulk] stores all the rows or none: after the call
    the database holds either what it held, and the call raised, or in
    addition one row per element of the list, in order.  One negative
    amount anywhere in the list is enough for nothing to be stored,
    whatever the database would have done. *)
Theorem create_bulk_all_or_nothing
    (faults : nat -> option string) (db : Store) (data : list AllocationData)
    (r : result (list Allocation)) (db' : Store) :
  run_create_bulk faults db data = (r, db') ->
  (((exists e, r = Raise e) /\ db' = db) \/
   (exists rows,
      db' = mkStore (budgets db) (allocation_rows db ++ rows) /\
      Forall2 (fun d row => a_budget_id row = Some (d_budget_id d) /\
                            a_county_id row = d_county_id d /\
                            a_amount row = d_amount d /\
                            0 <= d_amount d)
              data rows)) /\
  (Exists (fun d => d_amount d < 0) data ->
   r = Raise (ValueError "Allocation amount cannot be negative") /\ db' = db).
Proof.
  intros H. unfold run_create_bulk, create_bulk in H.
  match type of H with
  | (let '(_, _) := try_except_finally ?body _ _ ?s0 in _) = _ =>
      destruct (body s0) as [rb s1] eqn:Hb;
      destruct (try_except_finally_committed body s0 s1 rb Hb) as (s2 & E2 & C2)
  end.
  rewrite E2 in H. injection H as <- <-. rewrite C2. clear E2 C2 s2. split.
  - apply M_bind_inv in Hb as [(e & Hb & ->)|(us & sa & Ha & Hb)].
    { apply add_loop_inv in Hb as (C & _). left. split; [now eexists|exact C]. }
    apply add_loop_inv in Ha as (C & Fa & Ck & W & [(e & [=])|(news & Pe & Rows)]).
    cbn [pending get_db_session app] in Pe.
    cbn [committed working get_db_session] in C, W.
    apply M_bind_inv in Hb as [(e & Hb & ->)|(objs & sb & Hc & Hb)].
    { apply (commit_allocations _ news Pe) in Hb as [[_ C']|(objs & [=] & _)].
      left. split; [now eexists|congruence]. }
    apply (commit_allocations _ news Pe) in Hc
      as [[(e & [=]) _]|(objs' & [= <-] & C' & Same & _)].
    assert (Keep : committed s1 = committed sb).
    { revert Hb. apply keeps_bind; [apply keeps_for_eachM, keeps_refresh_allocation|].
      intros l s r0 s' [= _ <-]. reflexivity. }
    right. exists (as_allocations objs). split.
    { rewrite Keep, C', W. reflexivity. }
    clear -Rows Same. revert Same. generalize (as_allocations objs).
    induction Rows as [|d n data news Hd _ IH]; intros rows Same;
      inversion Same as [|? row ? rows' (S1 & S2 & S3) Same']; subst; constructor.
    + unfold Allocation_new, validate_amount in Hd.
      destruct (Qlt_le_dec (d_amount d) 0); [discriminate|].
      injection Hd as <-. cbn in S1, S2, S3. now repeat split.
    + now apply IH.
  - intros Neg.
    destruct (add_loop_raise
                (fun d => Allocation_new (Some (d_budget_id d)) (d_county_id d)
                                         (d_amount d))
                (ValueError "Allocation amount cannot be negative") data)
      with (s := get_db_session faults db) as (s' & Hl & C & _).
    + rewrite List.Forall_forall. intros d _. unfold Allocation_new, validate_amount.
      destruct (Qlt_le_dec (d_amount d) 0); [now right|left; now eexists].
    + apply List.Exists_exists in Neg as (d & I & Nd).
      apply List.Exists_exists. exists d. split; [assumption|].
      unfold Allocation_new, validate_amount.
      destruct (Qlt_le_dec (d_amount d) 0); [reflexivity|lra].
    + erewrite M_bind_raise in Hb; [|exact Hl]. injection Hb as <- <-.
      split; [reflexivity|exact C].
Qed.

(** * Names *)

Example County_validate_name_example :
  County_validate_name "  nAIROBI west-side's " = Ok "Nairobi West-Side'S".
Proof. reflexivity. Qed.

(** ** Characters *)

Ltac ascii_cases c :=
  destruct c as [[|] [|] [|] [|] [|] [|] [|] [|]]; reflexivity.

Lemma is_space_to_upper (c : ascii) : is_space (to_upper c) = is_space c.
Proof. ascii_cases c. Qed.

Lemma is_space_to_lower (c : ascii) : is_space (to_lower c) = is_space c.
Proof. ascii_cases c. Qed.

Lemma is_cased_to_upper (c : ascii) : is_cased (to_upper c) = is_cased c.
Proof. ascii_cases c. Qed.

Lemma is_cased_to_lower (c : ascii) : is_cased (to_lower c) = is_cased c.
Proof. ascii_cases c. Qed.

Lemma to_upper_to_upper (c : ascii) : to_upper (to_upper c) = to_upper c.
Proof. ascii_cases c. Qed.

Lemma to_lower_to_lower (c : ascii) : to_lower (to_lower c) = to_lower c.
Proof. ascii_cases c. Qed.

Lemma to_upper_to_lower (c : ascii) : to_upper (to_lower c) = to_upper c.
Proof. ascii_cases c. Qed.

(** ** Lists of characters *)

Lemma title_from_length (p : bool) (l : list ascii) :
  length (title_from p l) = length l.
Proof.
  revert p. induction l as [|c l IH]; intros p; cbn [title_from length];
    [reflexivity|]. now rewrite IH.
Qed.

Lemma title_from_idempotent (p : bool) (l : list ascii) :
  title_from p (title_from p l) = title_from p l.
Proof.
  revert p. induction l as [|c l IH]; intros p; cbn [title_from]; [reflexivity|].
  destruct p.
  - now rewrite to_lower_to_lower, is_cased_to_lower, IH.
  - now rewrite to_upper_to_upper, is_cased_to_upper, IH.
Qed.

Lemma title_from_spaces (p : bool) (l : list ascii) :
  map is_space (title_from p l) = map is_space l.
Proof.
  revert p. induction l as [|c l IH]; intros p; cbn [title_from map]; [reflexivity|].
  rewrite IH. destruct p; now rewrite ?is_space_to_lower, ?is_space_to_upper.
Qed.

Lemma title_from_ignores_case (p : bool) (l1 l2 : list ascii) :
  Forall2 (fun a b => to_lower a = to_lower b) l1 l2 ->
  title_from p l1 = title_from p l2.
Proof.
  intros H. revert p. induction H as [|a b0 l1 l2 E _ IH]; intros p;
    cbn [title_from]; [reflexivity|].
  assert (Ec : is_cased a = is_cased b0)
    by (rewrite <- (is_cased_to_lower a), <- (is_cased_to_lower b0); now rewrite E).
  assert (Eu : to_upper a = to_upper b0)
    by (rewrite <- (to_upper_to_lower a), <- (to_upper_to_lower b0); now rewrite E).
  rewrite Ec, IH. destruct p; now rewrite ?E, ?Eu.
Qed.

Lemma lstrip_lead_ok (l : list ascii) : lead_ok (map is_space (lstrip l)).
Proof.
  induction l as [|c l IH]; cbn [lstrip]; [exact I|].
  destruct (is_space c) eqn:E; [assumption|]. cbn [map lead_ok]. exact E.
Qed.

Lemma lstrip_id (l : list ascii) : lead_ok (map is_space l) -> lstrip l = l.
Proof.
  destruct l as [|c l]; cbn [map lead_ok lstrip]; [reflexivity|]. now intros ->.
Qed.

Lemma lstrip_suffix (l : list ascii) : exists pre, l = (pre ++ lstrip l)%list.
Proof.
  induction l as [|c l [pre IH]]; cbn [lstrip]; [now exists []|].
  destruct (is_space c).
  - exists (c :: pre). cbn [app]. now rewrite <- IH.
  - now exists [].
Qed.

Lemma lstrip_length (l : list ascii) : (length (lstrip l) <= length l)%nat.
Proof.
  destruct (lstrip_suffix l) as [pre E]. rewrite E at 2. rewrite length_app. lia.
Qed.

Lemma strip_list_length (l : list ascii) : (length (strip_list l) <= length l)%nat.
Proof.
  unfold strip_list. rewrite length_rev.
  etransitivity; [apply lstrip_length|]. rewrite length_rev. apply lstrip_length.
Qed.

Lemma strip_list_id (l : list ascii) :
  lead_ok (map is_space l) -> lead_ok (rev (map is_space l)) -> strip_list l = l.
Proof.
  intros H1 H2. unfold strip_list. rewrite (lstrip_id l H1).
  rewrite lstrip_id by now rewrite map_rev. apply rev_involutive.
Qed.

Lemma strip_list_edges (l : list ascii) :
  lead_ok (map is_space (strip_list l)) /\
  lead_ok (rev (map is_space (strip_list l))).
Proof.
  unfold strip_list. split.
  - pose proof (lstrip_lead_ok l) as Z.
    destruct (lstrip_suffix (rev (lstrip l))) as [pre E].
    apply (f_equal (@rev ascii)) in E. rewrite rev_involutive, rev_app_distr in E.
    destruct (rev (lstrip (rev (lstrip l)))) as [|c x]; [exact I|].
    rewrite E in Z. exact Z.
  - rewrite <- map_rev, rev_involutive. apply lstrip_lead_ok.
Qed.

Lemma lstrip_Forall2 (R : ascii -> ascii -> Prop) (l1 l2 : list ascii) :
  (forall a b, R a b -> is_space a = is_space b) ->
  Forall2 R l1 l2 -> Forall2 R (lstrip l1) (lstrip l2).
Proof.
  intros Sp. induction 1 as [|a b0 l1 l2 Rab F IH]; cbn [lstrip]; [constructor|].
  rewrite (Sp a b0 Rab). destruct (is_space b0); [assumption|now constructor].
Qed.

Lemma rev_Forall2 {A} (R : A -> A -> Prop) (l1 l2 : list A) :
  Forall2 R l1 l2 -> Forall2 R (rev l1) (rev l2).
Proof.
  induction 1 as [|a b0 l1 l2 Rab F IH]; cbn [rev]; [constructor|].
  apply Forall2_app; [assumption|now repeat constructor].
Qed.

Lemma strip_list_Forall2 (R : ascii -> ascii -> Prop) (l1 l2 : list ascii) :
  (forall a b, R a b -> is_space a = is_space b) ->
  Forall2 R l1 l2 -> Forall2 R (strip_list l1) (strip_list l2).
Proof.
  intros Sp F. unfold strip_list.
  now apply rev_Forall2, lstrip_Forall2, rev_Forall2, lstrip_Forall2.
Qed.

(** ** Strings *)

Lemma length_list_ascii (s : string) :
  length (list_ascii_of_string s) = String.length s.
Proof. induction s as [|c s IH]; cbn; [reflexivity|]. now rewrite IH. Qed.

Lemma length_string_of_list (l : list ascii) :
  String.length (string_of_list_ascii l) = length l.
Proof. induction l as [|c l IH]; cbn; [reflexivity|]. now rewrite IH. Qed.

Lemma py_strip_list (s : string) :
  list_ascii_of_string (py_strip s) = strip_list (list_ascii_of_string s).
Proof. unfold py_strip. apply list_ascii_of_string_of_list_ascii. Qed.

Lemma py_strip_length (s : string) :
  (String.length (py_strip s) <= String.length s)%nat.
Proof.
  rewrite <- !length_list_ascii, py_strip_list. apply strip_list_length.
Qed.

Lemma py_strip_eq (s : string) :
  py_strip s = string_of_list_ascii (strip_list (list_ascii_of_string s)).
Proof. reflexivity. Qed.

Lemma py_strip_idempotent (s : string) : py_strip (py_strip s) = py_strip s.
Proof.
  rewrite (py_strip_eq (py_strip s)), py_strip_list.
  destruct (strip_list_edges (list_ascii_of_string s)) as [H1 H2].
  rewrite (strip_list_id _ H1 H2). reflexivity.
Qed.

Lemma py_strip_title (s : string) :
  py_strip (py_title (py_strip s)) = py_title (py_strip s).
Proof.
  rewrite (py_strip_eq (py_title (py_strip s))). unfold py_title.
  rewrite list_ascii_of_string_of_list_ascii, py_strip_list.
  destruct (strip_list_edges (list_ascii_of_string s)) as [H1 H2].
  rewrite strip_list_id; [reflexivity| |]; now rewrite title_from_spaces.
Qed.

Lemma py_title_idempotent (s : string) : py_title (py_title s) = py_title s.
Proof.
  unfold py_title. rewrite list_ascii_of_string_of_list_ascii.
  now rewrite title_from_idempotent.
Qed.

Lemma py_title_length (s : string) : String.length (py_title s) = String.length s.
Proof.
  unfold py_title. now rewrite length_string_of_list, title_from_length, length_list_ascii.
Qed.

(** A name that a validator stored passes the validator unchanged: the
    normal form of a county name ([strip], then [title]) and that of a
    budget name ([strip]) are fixed points. *)
Theorem validate_name_idempotent (name n : string) :
  (County_validate_name name = Ok n -> County_validate_name n = Ok n) /\
  (validate_name name = Ok n -> validate_name n = Ok n).
Proof.
  split.
  - unfold County_validate_name.
    destruct (String.length name =? 0)%nat eqn:E0; [discriminate|].
    destruct (String.length (py_strip name) =? 0)%nat eqn:E1; [discriminate|].
    destruct (100 <? String.length name)%nat eqn:E2; [discriminate|].
    cbn [orb]. intros [= <-].
    rewrite py_strip_title, py_title_idempotent, py_title_length, E1. cbn [orb].
    apply Nat.ltb_ge in E2. pose proof (py_strip_length name) as L.
    destruct (100 <? String.length (py_strip name))%nat eqn:E3; [|reflexivity].
    apply Nat.ltb_lt in E3. lia.
  - unfold validate_name.
    destruct (String.length name =? 0)%nat eqn:E0; [discriminate|].
    destruct (String.length (py_strip name) =? 0)%nat eqn:E1; [discriminate|].
    destruct (200 <? String.length name)%nat eqn:E2; [discriminate|].
    cbn [orb]. intros [= <-].
    rewrite py_strip_idempotent, E1. cbn [orb].
    apply Nat.ltb_ge in E2. pose proof (py_strip_length name) as L.
    destruct (200 <? String.length (py_strip name))%nat eqn:E3; [|reflexivity].
    apply Nat.ltb_lt in E3. lia.
Qed.

(** Names that differ only in the case of their letters are validated
    alike: both rejected with the same error or both stored as the same
    name. *)
Theorem County_validate_name_ignores_case (n1 n2 : string) :
  same_up_to_case n1 n2 -> County_validate_name n1 = County_validate_name n2.
Proof.
  intros H. unfold same_up_to_case in H.
  assert (Sp : forall a b, to_lower a = to_lower b -> is_space a = is_space b).
  { intros a b0 E. rewrite <- (is_space_to_lower a), <- (is_space_to_lower b0).
    now rewrite E. }
  pose proof (strip_list_Forall2 _ _ _ Sp H) as Hs.
  assert (L : String.length n1 = String.length n2).
  { rewrite <- !length_list_ascii. eapply Forall2_length, H. }
  assert (Ls : String.length (py_strip n1) = String.length (py_strip n2)).
  { rewrite <- !length_list_ascii, !py_strip_list. eapply Forall2_length, Hs. }
  assert (T : py_title (py_strip n1) = py_title (py_strip n2)).
  { unfold py_title. rewrite !py_strip_list.
    now rewrite (title_from_ignores_case false _ _ Hs). }
  unfold County_validate_name. now rewrite L, Ls, T.
Qed.

(** * The errors of budget creation *)

Lemma raises_bind {A B} (m : M A) (k : A -> M B) (P : exn -> Prop) :
  raises_only m P -> (forall a, raises_only (k a) P) -> raises_only (m ≫= k) P.
Proof.
  intros Hm Hk s e s' H.
  apply M_bind_inv in H as [(e' & H & [= ->])|(a & s1 & _ & H)].
  - eapply Hm, H.
  - eapply Hk, H.
Qed.

Lemma raises_lift_bind {A B} (r : result A) (k : A -> M B) (P : exn -> Prop) :
  (forall e, r = Raise e -> P e) ->
  (forall a, r = Ok a -> raises_only (k a) P) ->
  raises_only (lift r ≫= k) P.
Proof.
  intros Hr Hk s e s' H.
  apply M_bind_inv in H as [(e' & H & [= ->])|(a & s1 & H1 & H)].
  - injection H as H _. now apply Hr.
  - injection H1 as H1 _. eapply Hk; eassumption.
Qed.

Lemma raises_for_eachM {A B} (f : A -> M B) (l : list A) (P : exn -> Prop) :
  (forall a, raises_only (f a) P) -> raises_only (for_eachM f l) P.
Proof.
  intros Hf. induction l as [|a l IH]; cbn [for_eachM].
  - intros s e s' [=].
  - apply raises_bind; [apply Hf|]. intros b0.
    apply raises_bind; [apply IH|]. intros bs s e s' [=].
Qed.

Lemma raises_weaken {A} (m : M A) (P Q : exn -> Prop) :
  (forall e, P e -> Q e) -> raises_only m P -> raises_only m Q.
Proof. intros I H s e s' E. eapply I, H, E. Qed.

Lemma raises_statement : raises_only statement storage_error.
Proof.
  intros s e s'. unfold statement.
  destruct (fault s (clock s)) as [msg|]; intros [= <- _]. now exists msg.
Qed.

Lemma raises_insert (obj : Pending) : raises_only (insert obj) storage_error.
Proof.
  intros s e s' H. unfold insert in H.
  destruct (statement s) as [[u|e0] s1] eqn:E.
  - destruct obj; discriminate.
  - injection H as <- _. eapply raises_statement, E.
Qed.

Lemma raises_flush : raises_only flush storage_error.
Proof.
  intros s e s' H. unfold flush in H.
  eapply (raises_for_eachM insert), H. apply raises_insert.
Qed.

Lemma raises_commit : raises_only commit storage_error.
Proof.
  unfold commit. apply raises_bind; [apply raises_flush|]. intros objs.
  apply raises_bind; [apply raises_statement|]. intros _.
  apply raises_bind; [intros s e s' [=]|]. intros _ s e s' [=].
Qed.

Lemma raises_refresh_budget (b : Budget) :
  raises_only (refresh_budget b) storage_error.
Proof.
  apply raises_bind; [apply raises_statement|]. intros _ s e s'.
  unfold select_budget. destruct (List.find _ _); intros [= <- _]. now eexists.
Qed.

Lemma raises_refresh_allocation (a : Allocation) :
  raises_only (refresh_allocation a) storage_error.
Proof.
  apply raises_bind; [apply raises_statement|]. intros _ s e s'.
  unfold select_allocation. destruct (List.find _ _); intros [= <- _]. now eexists.
Qed.

Lemma raises_add (obj : Pending) (P : exn -> Prop) : raises_only (add obj) P.
Proof. intros s e s' [=]. Qed.

Lemma for_each_Raise_inv {A B} (f : A -> result B) (l : list A) (e : exn) :
  for_each f l = Raise e -> exists a, In a l /\ f a = Raise e.
Proof.
  induction l as [|a l IH]; cbn [for_each]; [discriminate|].
  destruct (f a) as [b0|e0] eqn:Fa; cbn [mbind result_bind].
  - destruct (for_each f l) as [bs|e1] eqn:Fl; cbn [mbind result_bind]; [discriminate|].
    intros [= <-]. destruct (IH eq_refl) as (a' & I & E). exists a'. split; [now right|assumption].
  - intros [= <-]. exists a. split; [now left|assumption].
Qed.

Lemma py_div_Raise (x y : Q) (e : exn) : py_div x y = Raise e -> e = ZeroDivisionError.
Proof. unfold py_div. destruct (Qeq_bool y 0); [now intros [= <-]|discriminate]. Qed.

Lemma bind_Raise_inv {A B} (m : result A) (k : A -> result B) (e : exn) :
  m ≫= k = Raise e -> m = Raise e \/ exists a, m = Ok a /\ k a = Raise e.
Proof.
  destruct m as [a|e0]; cbn [mbind result_bind]; intros H.
  - right. now exists a.
  - left. now injection H as ->.
Qed.

(** The errors of the three methods on a calculator with counties. *)
Lemma dispatch_Raise (self : AllocationCalculator) (m : string) (e : exn) :
  counties self <> [] -> In m method_names -> dispatch self m = Raise e ->
  e = ZeroDivisionError \/ e = ValueError "Total project score cannot be zero".
Proof.
  intros N Hm. unfold dispatch.
  destruct Hm as [<-|[<-|[<-|[]]]]; cbn [String.eqb Ascii.eqb Bool.eqb].
  - unfold equal_allocation. intros H.
    apply bind_Raise_inv in H as [H|(apc & _ & H)]; [left; eapply py_div_Raise, H|].
    apply for_each_Raise_inv in H as (c & _ & H).
    apply bind_Raise_inv in H as [H|(x & _ & [=])]. left. eapply py_div_Raise, H.
  - unfold gdp_per_capita_allocation. intros H.
    apply bind_Raise_inv in H as [H|(pre & _ & [=])]. unfold gdp_unsorted in H.
    destruct (counties self) as [|c cs] eqn:Ec; [congruence|].
    cbn [map py_min py_max mbind result_bind] in H.
    apply for_each_Raise_inv in H as ([[c' g] w] & _ & H). unfold gdp_record in H.
    apply bind_Raise_inv in H as [H|(x & _ & H)]; [left; eapply py_div_Raise, H|].
    apply bind_Raise_inv in H as [H|(y & _ & [=])]. left. eapply py_div_Raise, H.
  - unfold project_based_allocation. intros H.
    apply bind_Raise_inv in H as [H|(pre & _ & [=])]. unfold project_unsorted in H.
    destruct (py_sumZ (map project_score (counties self)) =? 0)%Z;
      [right; now injection H as <-|].
    apply for_each_Raise_inv in H as (c & _ & H). unfold project_record in H.
    apply bind_Raise_inv in H as [H|(x & _ & H)]; [left; eapply py_div_Raise, H|].
    apply bind_Raise_inv in H as [H|(y & _ & [=])]. left. eapply py_div_Raise, H.
Qed.

Lemma Budget_new_Raise (name : string) (total : Q) (m : string) (e : exn) :
  Budget_new name total m = Raise e -> creation_error e.
Proof.
  unfold Budget_new, validate_name, validate_total_amount, validate_allocation_method.
  intros H. right. right.
  destruct (_ || _)%bool.
  { injection H as <-. eexists. split; [reflexivity|]. cbn. tauto. }
  destruct (200 <? String.length name)%nat.
  { injection H as <-. eexists. split; [reflexivity|]. cbn. tauto. }
  cbn [mbind result_bind] in H. destruct (Qle_bool total 0).
  { injection H as <-. eexists. split; [reflexivity|]. cbn. tauto. }
  cbn [mbind result_bind] in H. destruct (existsb _ _); [discriminate|].
  injection H as <-. eexists. split; [reflexivity|]. cbn. tauto.
Qed.

Lemma Budget_new_Ok_inv (name : string) (total : Q) (m : string) (budget : Budget) :
  Budget_new name total m = Ok budget -> 0 < total /\ In m method_names.
Proof.
  unfold Budget_new, validate_name, validate_total_amount, validate_allocation_method.
  destruct (_ || _)%bool; [discriminate|].
  destruct (200 <? String.length name)%nat; [discriminate|].
  cbn [mbind result_bind]. destruct (Qle_bool total 0) eqn:E; [discriminate|].
  cbn [mbind result_bind]. destruct (existsb _ _) eqn:Ex; [|discriminate].
  intros _. split.
  - destruct (Qlt_le_dec 0 total) as [P|Z]; [assumption|].
    apply Qle_bool_iff in Z. congruence.
  - apply existsb_exists in Ex as (x & I & Ex). apply String.eqb_eq in Ex.
    now subst x.
Qed.

Lemma summary_Raise_inv (self : AllocationCalculator) (m : string) (e : exn) :
  get_allocation_summary self m = Raise e -> dispatch self m = Raise e.
Proof.
  unfold get_allocation_summary. intros H.
  now apply bind_Raise_inv in H as [H|(allocs & _ & [=])].
Qed.

(** Every error [create_budget_with_allocations] raises is a storage
    error, a division by zero, or one of seven [ValueError]s.  The
    calculator's errors for an unknown method and for a non-positive
    amount are not among them: the validators of [Budget] reject such
    input first. *)
Theorem create_budget_errors
    (faults : nat -> option string) (db : Store) (name : string) (total : Q)
    (m : string) (cs : list County) (e : exn) (db' : Store) :
  run_create_budget faults db name total m cs = (Raise e, db') ->
  creation_error e /\
  e <> ValueError ("Unknown allocation method: " ++ m) /\
  e <> ValueError "Budget amount must be greater than zero".
Proof.
  intros H. unfold run_create_budget, create_budget_with_allocations in H.
  match type of H with
  | (let '(_, _) := try_except_finally ?body _ _ ?s0 in _) = _ =>
      destruct (body s0) as [rb s1] eqn:Hb;
      destruct (try_except_finally_committed body s0 s1 rb Hb) as (s2 & E2 & _);
      assert (R : raises_only body creation_error)
  end.
  { apply raises_lift_bind; [apply Budget_new_Raise|]. intros budget0 Hnew.
    apply Budget_new_Ok_inv in Hnew as [P Hm].
    apply raises_bind; [apply raises_add|]. intros _.
    apply raises_bind; [eapply raises_weaken, raises_flush; now left|].
    intros flushed. cbv zeta.
    apply raises_lift_bind.
    { intros e0 He. right. right. unfold init in He.
      destruct cs; [|destruct (Qle_bool total 0) eqn:E;
                      [apply Qle_bool_iff in E; lra|discriminate]].
      injection He as <-. eexists. split; [reflexivity|]. cbn. tauto. }
    intros calc Hinit. apply init_Ok_inv in Hinit as (-> & N & _).
    apply raises_lift_bind.
    { intros e0 He. apply summary_Raise_inv in He.
      apply dispatch_Raise in He as [->| ->]; [now right; left|right; right|exact N|exact Hm].
      eexists. split; [reflexivity|]. cbn. tauto. }
    intros summary _.
    apply raises_bind.
    { apply raises_for_eachM. intros a. apply raises_lift_bind; [|intros; apply raises_add].
      intros e0 He. right. right. unfold Allocation_new, validate_amount in He.
      destruct (Qlt_le_dec (amount a) 0); [|discriminate].
      injection He as <-. eexists. split; [reflexivity|]. cbn. tauto. }
    intros _.
    apply raises_bind; [eapply raises_weaken, raises_commit; now left|].
    intros objs. cbv zeta.
    apply raises_bind; [eapply raises_weaken, raises_refresh_budget; now left|].
    intros budget'.
    apply raises_bind.
    { apply raises_for_eachM. intros a.
      eapply raises_weaken, raises_refresh_allocation. now left. }
    intros rows s e0 s' [=]. }
  rewrite E2 in H. injection H as -> _.
  specialize (R _ _ _ Hb). split; [exact R|].
  destruct R as [[msg ->]|[->|(msg & -> & I)]]; [split; discriminate..|].
  cbn [creation_messages In] in I.
  split; intros [= E]; subst msg;
    repeat (destruct I as [I|I]; [discriminate I|]); exact I.
Qed.

(** * More on the summary *)

(** On a calculator with counties, [get_allocation_summary] raises its
    unknown-method error exactly for the names outside the three. *)
Theorem unknown_method_iff (self : AllocationCalculator) (m : string) :
  counties self <> [] ->
  (get_allocation_summary self m =
     Raise (ValueError ("Unknown allocation method: " ++ m)) <->
   ~ In m method_names).
Proof.
  intros N. split.
  - intros H Hm. apply summary_Raise_inv in H.
    apply (dispatch_Raise self m _ N Hm) in H as [H|H]; discriminate H.
  - intros Hm. apply summary_Raise. unfold dispatch.
    destruct (String.eqb m "equal") eqn:E1.
    { apply String.eqb_eq in E1. exfalso. apply Hm. subst m. cbn. tauto. }
    destruct (String.eqb m "gdp_per_capita") eqn:E2.
    { apply String.eqb_eq in E2. exfalso. apply Hm. subst m. cbn. tauto. }
    destruct (String.eqb m "project_based") eqn:E3.
    { apply String.eqb_eq in E3. exfalso. apply Hm. subst m. cbn. tauto. }
    reflexivity.
Qed.


(** * The further properties at concrete inputs *)

Lemma sample_init :
  init 1000000 sample_counties = Ok (mkCalculator 1000000 sample_counties).
Proof. reflexivity. Qed.


Lemma sample_nonempty : sample_counties <> [].
Proof. discriminate. Qed.






Lemma project_allocation_raises_iff_witness :
  project_based_allocation (mkCalculator 1000000 sample_counties) =
    Raise (ValueError "Total project score cannot be zero") <->
  py_sumZ (map project_score sample_counties) = 0%Z.
Proof. apply (project_allocation_raises_iff _ _ _ sample_init). Defined.







Lemma create_bulk_all_or_nothing_witness :
  run_create_bulk (fun _ => None) empty_store
    [mkAllocationData 1 1 100; mkAllocationData 1 2 (-5)]
  = (Raise (ValueError "Allocation amount cannot be negative"), empty_store).
Proof.
  assert (R : run_create_bulk (fun _ => None) empty_store
                [mkAllocationData 1 1 100; mkAllocationData 1 2 (-5)]
              = (Raise (ValueError "Allocation amount cannot be negative"),
                 empty_store)) by reflexivity.
  destruct (proj2 (create_bulk_all_or_nothing _ _ _ _ _ R)) as [_ _].
  - apply Exists_cons_tl, Exists_cons_hd. reflexivity.
  - exact R.
Defined.

Lemma County_validate_name_ignores_case_witness :
  County_validate_name "nairobi" = County_validate_name "NAIROBI".
Proof.
  apply County_validate_name_ignores_case. repeat constructor.
Defined.

Lemma create_budget_errors_witness :
  creation_error (StorageError "database is locked").
Proof.
  apply (create_budget_errors (fail_at 2) empty_store "FY 2025" 1000000 "equal"
           sample_counties _ empty_store).
  vm_compute. reflexivity.
Defined.

Lemma unknown_method_iff_witness :
  get_allocation_summary (mkCalculator 1000000 sample_counties) "weighted" =
    Raise (ValueError ("Unknown allocation method: " ++ "weighted")) <->
  ~ In "weighted" method_names.
Proof. apply unknown_method_iff. exact sample_nonempty. Defined.

